(** * SimpleBot: the chat-completion bridge of llamabot

    A shallow embedding of [src/llamabot/bot/simplebot.py]: the constructor
    [SimpleBot.__init__], the call [SimpleBot.__call__] and the generation step
    [SimpleBot.generate_response].

    Python code runs in a state-and-exception monad. The state holds the
    attributes of the instance ([self]), what was printed, what the client
    and the recorder received, the process-wide default model name and how
    often it was looked up. The
    effects that happened before an exception stay in place, as in Python. *)

From Stdlib Require Import String List Bool Floats.
From Stdlib Require Import DecimalString.
Import ListNotations.
Local Open Scope string_scope.
Local Open Scope list_scope.

(** ** Exceptions *)

(** A Python exception: its class name and its message. *)
Inductive exn : Type :=
| Exn (cls : string) (msg : string).

Definition IndexError : exn := Exn "IndexError" "list index out of range".
Definition TypeError : exn := Exn "TypeError" "object is not iterable".
Definition AttributeError : exn := Exn "AttributeError" "object has no attribute 'choices'".

(** ** Results *)

Inductive result (A : Type) : Type :=
| Return (a : A)
| Raise (e : exn).
Arguments Return {A} a.
Arguments Raise {A} e.

(** ** Messages *)

(** Modelled from the spec: [llamabot.components.messages] is imported by
    simplebot.py and is not among the sources. A message has a role, fixed by
    its variant, and a content, which is text. *)
Inductive Role : Type := system | user | assistant.

Inductive message : Type :=
| Message (role : Role) (content : string).

Definition role (m : message) : Role :=
  match m with Message r _ => r end.

Definition content (m : message) : string :=
  match m with Message _ c => c end.

(** Python is dynamically typed: what [generate_response] returns, and what
    [__call__] hands to the recorder and to [AIMessage], is a [str] or a
    message. *)
Inductive value : Type :=
| VStr (s : string)
| VMessage (m : message).

Definition ValidationError : exn :=
  Exn "ValidationError" "content: Input should be a valid string".

(** Modelled from the spec: the construction of a message validates that the
    content is text, and nothing else; the classes are pydantic models (the
    code calls [model_dump] on them), which raise [ValidationError] on a
    content that is not a string. *)
Definition new_message (r : Role) (content : value) : result message :=
  match content with
  | VStr s => Return (Message r s)
  | VMessage _ => Raise ValidationError
  end.

Definition SystemMessage (content : value) : result message :=
  new_message system content.
Definition HumanMessage (content : value) : result message :=
  new_message user content.
Definition AIMessage (content : value) : result message :=
  new_message assistant content.

Definition role_name (r : Role) : string :=
  match r with
  | system => "system"
  | user => "user"
  | assistant => "assistant"
  end.

(** A Python dict with string keys, in insertion order. *)
Definition dict : Type := list (string * value).

(** Modelled from the spec: [m.model_dump()], the serialization of a message
    to its {role, content} record. *)
Definition model_dump (m : message) : dict :=
  [("role", VStr (role_name (role m))); ("content", VStr (content m))].

(** ** The completion client *)

(** What the client hands back (the objects of the completion API, which the
    code only reads). A streamed response is an iterator: it yields finitely
    many chunks and then stops, or raises a fault instead of stopping; the
    code reads [chunk.choices[0].delta.content], which may be [None]. A
    completed response is one payload; the code reads
    [response.choices[0].text]. *)
Record Delta : Type := { delta_content : option string }.
Record StreamChoice : Type := { delta : Delta }.
Record Chunk : Type := { chunk_choices : list StreamChoice }.
Record Choice : Type := { text : string }.
Record Completion : Type := { choices : list Choice }.

Inductive Response : Type :=
| Stream (chunks : list Chunk) (fault : option exn)
| Payload (p : Completion).

(** The keyword arguments of [client.chat.completions.create]. *)
Record request : Type := {
  req_model : string;
  req_messages : list dict;
  req_temperature : float;
  req_stream : bool
}.

(** The client, as far as the bridge uses it: [chat.completions.create]
    answers a request with a response or raises. *)
Record Client : Type := { create : request -> result Response }.

(** ** The instance and the state *)

(** The attributes that [__init__] sets on the instance. *)
Record SimpleBot : Type := {
  system_prompt : message;
  client : Client;
  model_name : string;
  temperature : float;
  streaming : bool
}.

Record state : Type := {
  self : SimpleBot;
  stdout : string;
  requests : list request;
  recorded : list (string * value);
  DEFAULT_LANGUAGE_MODEL : string;
  default_lookups : nat
}.

(** The state with one component replaced. *)
Definition with_self (b : SimpleBot) (s : state) : state :=
  {| self := b; stdout := stdout s; requests := requests s;
     recorded := recorded s;
     DEFAULT_LANGUAGE_MODEL := DEFAULT_LANGUAGE_MODEL s;
     default_lookups := default_lookups s |}.

Definition with_stdout (out : string) (s : state) : state :=
  {| self := self s; stdout := out; requests := requests s;
     recorded := recorded s;
     DEFAULT_LANGUAGE_MODEL := DEFAULT_LANGUAGE_MODEL s;
     default_lookups := default_lookups s |}.

Definition with_requests (reqs : list request) (s : state) : state :=
  {| self := self s; stdout := stdout s; requests := reqs;
     recorded := recorded s;
     DEFAULT_LANGUAGE_MODEL := DEFAULT_LANGUAGE_MODEL s;
     default_lookups := default_lookups s |}.

Definition with_recorded (calls : list (string * value)) (s : state) : state :=
  {| self := self s; stdout := stdout s; requests := requests s;
     recorded := calls;
     DEFAULT_LANGUAGE_MODEL := DEFAULT_LANGUAGE_MODEL s;
     default_lookups := default_lookups s |}.

Definition with_default_language_model (name : string) (s : state) : state :=
  {| self := self s; stdout := stdout s; requests := requests s;
     recorded := recorded s; DEFAULT_LANGUAGE_MODEL := name;
     default_lookups := default_lookups s |}.

Definition with_default_lookups (n : nat) (s : state) : state :=
  {| self := self s; stdout := stdout s; requests := requests s;
     recorded := recorded s;
     DEFAULT_LANGUAGE_MODEL := DEFAULT_LANGUAGE_MODEL s;
     default_lookups := n |}.

(** ** The monad *)

Definition M (A : Type) : Type := state -> result A * state.

Definition ret {A : Type} (a : A) : M A := fun s => (Return a, s).

Definition raise {A : Type} (e : exn) : M A := fun s => (Raise e, s).

Definition bind {A B : Type} (m : M A) (k : A -> M B) : M B :=
  fun s =>
    match m s with
    | (Return a, s') => k a s'
    | (Raise e, s') => (Raise e, s')
    end.

Notation "x <- m ;; k" := (bind m (fun x => k))
  (at level 61, m at next level, right associativity).
Notation "m ;; k" := (bind m (fun _ => k))
  (at level 61, right associativity).

(** The outcome of a call that leaves the state alone. *)
Definition lift {A : Type} (r : result A) : M A := fun s => (r, s).

(** Reading an attribute of [self]. *)
Definition attr {A : Type} (field : SimpleBot -> A) : M A :=
  fun s => (Return (field (self s)), s).

(** Assigning the attributes of [self]. *)
Definition update_self (f : SimpleBot -> SimpleBot) : M unit :=
  fun s => (Return tt, with_self (f (self s)) s).

Definition set_system_prompt (v : message) : M unit :=
  update_self (fun b =>
    {| system_prompt := v; client := client b; model_name := model_name b;
       temperature := temperature b; streaming := streaming b |}).

Definition set_client (v : Client) : M unit :=
  update_self (fun b =>
    {| system_prompt := system_prompt b; client := v;
       model_name := model_name b; temperature := temperature b;
       streaming := streaming b |}).

Definition set_model_name (v : string) : M unit :=
  update_self (fun b =>
    {| system_prompt := system_prompt b; client := client b; model_name := v;
       temperature := temperature b; streaming := streaming b |}).

Definition set_temperature (v : float) : M unit :=
  update_self (fun b =>
    {| system_prompt := system_prompt b; client := client b;
       model_name := model_name b; temperature := v;
       streaming := streaming b |}).

Definition set_streaming (v : bool) : M unit :=
  update_self (fun b =>
    {| system_prompt := system_prompt b; client := client b;
       model_name := model_name b; temperature := temperature b;
       streaming := v |}).

(** [print(fragment, end="")]. *)
Definition print (fragment : string) : M unit :=
  fun s => (Return tt, with_stdout (stdout s ++ fragment) s).

(** [xs[0]]. *)
Definition index0 {A : Type} (xs : list A) : M A :=
  match xs with
  | x :: _ => ret x
  | [] => raise IndexError
  end.

(** [self.client.chat.completions.create(...)]: the client receives the
    request, then answers or raises. *)
Definition create_completion (req : request) : M Response :=
  fun s =>
    (create (client (self s)) req, with_requests (requests s ++ [req]) s).

(** Modelled from the spec: [llamabot.config.default_language_model] is not
    among the sources; it reads the process-wide configured default model
    name. The state counts its calls. *)
Definition default_language_model : M string :=
  fun s =>
    (Return (DEFAULT_LANGUAGE_MODEL s),
     with_default_lookups (S (default_lookups s)) s).

(** A change of the process-wide configuration. *)
Definition configure (name : string) : M unit :=
  fun s => (Return tt, with_default_language_model name s).

(** ** The code of simplebot.py *)

Section Collaborators.

(** Modelled from the spec: [llamabot.bot.model_dispatcher.make_client], the
    client factory, is not among the sources. It maps a model name to a
    client, or raises when the name cannot be resolved. *)
Variable make_client : string -> result Client.

(** Modelled from the spec: what the recorder behind
    [llamabot.recorder.autorecord] does with a prompt and a response is not
    among the sources: it returns ([None]) or raises. *)
Variable recorder : string -> value -> option exn.

(** [autorecord(prompt, response)]: the recorder is invoked, which the state
    records, and its fault, if any, is raised. *)
Definition autorecord (prompt : string) (response : value) : M unit :=
  fun s =>
    let s' := with_recorded (recorded s ++ [(prompt, response)]) s in
    match recorder prompt response with
    | None => (Return tt, s')
    | Some e => (Raise e, s')
    end.

(** [SimpleBot.__init__], lines 38-49, with every argument supplied. *)
Definition __init__ (system_prompt : string) (temperature : float)
    (model_name : string) (streaming : bool) : M unit :=
  prompt <- lift (SystemMessage (VStr system_prompt)) ;;
  set_system_prompt prompt ;;
  c <- lift (make_client model_name) ;;
  set_client c ;;
  set_model_name model_name ;;
  set_temperature temperature ;;
  set_streaming streaming.

(** The loop of lines 77-81 over a streamed response, with the accumulator
    [ai_message]: [chunks] are the chunks still to come, and [fault] is what
    the iterator raises after them, if anything. *)
Fixpoint accumulate (chunks : list Chunk) (fault : option exn)
    (ai_message : string) : M string :=
  match chunks with
  | [] =>
      match fault with
      | None => ret ai_message
      | Some e => raise e
      end
  | chunk :: rest =>
      choice <- index0 (chunk_choices chunk) ;;
      match delta_content (delta choice) with
      | Some fragment =>
          print fragment ;;
          accumulate rest fault (ai_message ++ fragment)
      | None => accumulate rest fault ai_message
      end
  end.

(** [SimpleBot.generate_response], lines 66-85. A client that answers a
    streaming request with a payload, or a plain request with a stream, breaks
    its contract; the code then fails at the first operation the object does
    not support. *)
Definition generate_response (messages : list message) : M value :=
  let messages := map model_dump messages in
  model <- attr model_name ;;
  temperature <- attr temperature ;;
  stream <- attr streaming ;;
  response <- create_completion
    {| req_model := model; req_messages := messages;
       req_temperature := temperature; req_stream := stream |} ;;
  streaming <- attr streaming ;;
  if streaming then
    match response with
    | Stream chunks fault =>
        ai_message <- accumulate chunks fault "" ;;
        ai_message <- lift (AIMessage (VStr ai_message)) ;;
        ret (VMessage ai_message)
    | Payload _ => raise TypeError
    end
  else
    match response with
    | Payload p =>
        choice <- index0 (choices p) ;;
        ret (VStr (text choice))
    | Stream _ _ => raise AttributeError
    end.

(** [SimpleBot.__call__], lines 51-64, with the attribute
    [self.generate_response] it looks up as a parameter: a test replaces that
    attribute by a mock. *)
Definition call_with (generate_response : list message -> M value)
    (human_message : string) : M message :=
  system_prompt <- attr system_prompt ;;
  human <- lift (HumanMessage (VStr human_message)) ;;
  let messages := [system_prompt; human] in
  response <- generate_response messages ;;
  autorecord human_message response ;;
  lift (AIMessage response).

(** [SimpleBot.__call__] on an instance whose [generate_response] is the
    method of the class. *)
Definition __call__ (human_message : string) : M message :=
  call_with generate_response human_message.

(** A caller that calls the bridge with one message after the other, whether
    the calls return or raise; the state after the last call. *)
Definition run_calls (human_messages : list string) (s : state) : state :=
  fold_left (fun s h => snd (__call__ h s)) human_messages s.

End Collaborators.

(** ** The class statement and the defaults of [__init__] *)

(** The default values of the parameters of [__init__]. Python evaluates them
    when it executes the [def], and keeps them in the function object. *)
Record defaults : Type := {
  default_temperature : float;
  default_model_name : string;
  default_streaming : bool
}.

(** Executing the class body, lines 23-49: the defaults of [__init__] are
    evaluated, [default_language_model()] among them. *)
Definition class_SimpleBot : M defaults :=
  model_name <- default_language_model ;;
  ret {| default_temperature := 0.0%float;
         default_model_name := model_name;
         default_streaming := true |}.

(** An optional argument: the caller's value, or the default. *)
Definition or_default {A : Type} (argument : option A) (default : A) : A :=
  match argument with
  | Some a => a
  | None => default
  end.

(** [SimpleBot(system_prompt, ...)]: [__init__] with the arguments that the
    caller omits ([None]) taken from the defaults of the class. *)
Definition SimpleBot_new (make_client : string -> result Client)
    (cls : defaults) (system_prompt : string) (temperature : option float)
    (model_name : option string) (streaming : option bool) : M unit :=
  __init__ make_client system_prompt
    (or_default temperature (default_temperature cls))
    (or_default model_name (default_model_name cls))
    (or_default streaming (default_streaming cls)).

(** ** What the spec says of the accumulated text *)

(** The content of a chunk, when the chunk has a first choice. *)
Definition chunk_content (chunk : Chunk) : option (option string) :=
  match chunk_choices chunk with
  | choice :: _ => Some (delta_content (delta choice))
  | [] => None
  end.

(** A chunk is well formed when it has a first choice. *)
Definition well_formed (chunk : Chunk) : bool :=
  match chunk_choices chunk with
  | _ :: _ => true
  | [] => false
  end.

(** The non-null contents of the chunks, in arrival order. *)
Fixpoint fragments (chunks : list Chunk) : list string :=
  match chunks with
  | [] => []
  | chunk :: rest =>
      match chunk_content chunk with
      | Some (Some fragment) => fragment :: fragments rest
      | _ => fragments rest
      end
  end.

(** The spec's accumulated text: the fragments, one after the other. *)
Definition accumulated_text (chunks : list Chunk) : string :=
  String.concat "" (fragments chunks).

(** The request that the generation step sends for an instance and a
    sequence of messages. *)
Definition request_of (b : SimpleBot) (messages : list message) : request :=
  {| req_model := model_name b;
     req_messages := map model_dump messages;
     req_temperature := temperature b;
     req_stream := streaming b |}.

(** The client raises [e] while it serves a request: when it is called, or,
    for a streaming request, after it has streamed some chunks. *)
Definition client_raises (c : Client) (req : request) (e : exn) : Prop :=
  create c req = Raise e
  \/ (exists chunks : list Chunk,
        req_stream req = true
        /\ create c req = Return (Stream chunks (Some e))
        /\ forallb well_formed chunks = true).

(** The message sequence of a call. *)
Definition messages_of (b : SimpleBot) (human_message : string) : list message :=
  [system_prompt b; Message user human_message].

(** A chunk that carries the given content. *)
Definition chunk_of (fragment : option string) : Chunk :=
  {| chunk_choices := [ {| delta := {| delta_content := fragment |} |} ] |}.

(** A payload that carries the given text. *)
Definition payload_of (t : string) : Completion :=
  {| choices := [ {| text := t |} ] |}.

(** ** Frame conditions *)

(** A computation keeps the attributes of the instance. *)
Definition keeps_self {A : Type} (m : M A) : Prop :=
  forall s : state, self (snd (m s)) = self s.

(** The result of a computation depends on the state only through the
    attributes of the instance. *)
Definition reads_self_only {A : Type} (m : M A) : Prop :=
  forall s s' : state, self s = self s' -> fst (m s) = fst (m s').

(** ** Mocks and sample data *)

(** A client that gives the same answer to every request. *)
Definition mock_client (answer : result Response) : Client :=
  {| create := fun _ => answer |}.

(** A replacement of [generate_response] that returns a fixed message, as
    [MagicMock] with a [return_value] does in test_simplebot.py. *)
Definition mock_generate_response (R : message) : list message -> M value :=
  fun _ => ret (VMessage R).

(** A factory that resolves every model name to the given client. *)
Definition resolve_to (c : Client) : string -> result Client :=
  fun _ => Return c.

(** A recorder that returns, and one that raises. *)
Definition quiet_recorder : string -> value -> option exn :=
  fun _ _ => None.

Definition RecorderError : exn := Exn "RecorderError" "disk full".

Definition failing_recorder : string -> value -> option exn :=
  fun _ _ => Some RecorderError.

Definition APIError : exn := Exn "APIError" "service unavailable".

(** The chunks "Hel", "lo", null, " world". *)
Definition hello_chunks : list Chunk :=
  [chunk_of (Some "Hel"); chunk_of (Some "lo"); chunk_of None;
   chunk_of (Some " world")].

(** An instance with the given client and streaming flag. *)
Definition sample_bot (c : Client) (stream : bool) : SimpleBot :=
  {| system_prompt := Message system "You are a bot.";
     client := c;
     model_name := "gpt-4";
     temperature := 0.5%float;
     streaming := stream |}.

(** Three clients: one that streams the chunks above, one that answers with
    the payload "Hi there", and one that raises. *)
Definition stream_client : Client :=
  mock_client (Return (Stream hello_chunks None)).
Definition plain_client : Client :=
  mock_client (Return (Payload (payload_of "Hi there"))).
Definition down_client : Client := mock_client (Raise APIError).

(** A client whose stream breaks after the chunks "Hel", "lo". *)
Definition broken_client : Client :=
  mock_client
    (Return (Stream [chunk_of (Some "Hel"); chunk_of (Some "lo")]
               (Some APIError))).

Definition streaming_bot : SimpleBot := sample_bot stream_client true.
Definition plain_bot : SimpleBot := sample_bot plain_client false.
Definition down_bot : SimpleBot := sample_bot down_client true.
Definition broken_bot : SimpleBot := sample_bot broken_client true.

(** A state in which nothing was printed, requested or recorded yet. *)
Definition fresh_state (b : SimpleBot) : state :=
  {| self := b; stdout := ""; requests := []; recorded := [];
     DEFAULT_LANGUAGE_MODEL := "gpt-3.5-turbo"; default_lookups := 0 |}.

(** The test response of test_simplebot.py. *)
Definition test_response : message := Message assistant "Test response".

(** The defaults of [__init__] when the class body runs in a fresh state. *)
Definition sample_defaults : defaults :=
  {| default_temperature := 0.0%float;
     default_model_name := "gpt-3.5-turbo";
     default_streaming := true |}.

(** Two more clients: one whose payload has no choice, and one whose stream
    has a chunk without choices between "Hel" and "lo". *)
Definition choiceless_client : Client :=
  mock_client (Return (Payload {| choices := [] |})).
Definition gap_client : Client :=
  mock_client
    (Return (Stream [chunk_of (Some "Hel"); {| chunk_choices := [] |};
                     chunk_of (Some "lo")] None)).

Definition choiceless_bot : SimpleBot := sample_bot choiceless_client false.
Definition gap_bot : SimpleBot := sample_bot gap_client true.

(** ** The button handler of [SimpleBot.panel] *)

(** What the handler [b] of lines 114-124 reads and writes: the state of the
    bot, the value of the input widget, the object of the output pane and
    what was logged. The handler also reads [self.model], an attribute that
    [__init__] does not set: [self_model] is [None] on an instance that has
    the attributes of [__init__] only, and otherwise holds what
    [self.model.callback_manager.set_handler] does, return ([None]) or
    raise. *)
Record panel_state : Type := {
  bot_state : state;
  self_model : option (option exn);
  input_text_value : string;
  output_text_object : string;
  logged : list value
}.

Definition with_bot_state (s : state) (g : panel_state) : panel_state :=
  {| bot_state := s; self_model := self_model g;
     input_text_value := input_text_value g;
     output_text_object := output_text_object g; logged := logged g |}.

Definition with_output_text_object (object : string) (g : panel_state)
    : panel_state :=
  {| bot_state := bot_state g; self_model := self_model g;
     input_text_value := input_text_value g;
     output_text_object := object; logged := logged g |}.

(** [logger.info(entry)]. *)
Definition logger_info (entry : value) (g : panel_state) : panel_state :=
  {| bot_state := bot_state g; self_model := self_model g;
     input_text_value := input_text_value g;
     output_text_object := output_text_object g;
     logged := logged g ++ [entry] |}.

Definition NoModelError : exn :=
  Exn "AttributeError" "'SimpleBot' object has no attribute 'model'".

(** The click handler [b(event)] of [SimpleBot.panel], lines 114-124. The
    constructor [PanelMarkdownCallbackHandler] (llamabot.panel_utils) is not
    among the sources: [markdown_handler] is its outcome, return or raise. *)
Definition b (markdown_handler : option exn)
    (recorder : string -> value -> option exn) (event : unit)
    (g : panel_state) : result unit * panel_state :=
  let g := logger_info (VStr (input_text_value g)) g in
  let g := with_output_text_object "" g in
  match markdown_handler with
  | Some e => (Raise e, g)
  | None =>
      match self_model g with
      | None => (Raise NoModelError, g)
      | Some (Some e) => (Raise e, g)
      | Some None =>
          match __call__ recorder (input_text_value g) (bot_state g) with
          | (Return response, s) =>
              (Return tt, logger_info (VMessage response) (with_bot_state s g))
          | (Raise e, s) => (Raise e, with_bot_state s g)
          end
      end
  end.

(** A panel around the bot that answers "Hi there", with "hello" typed into
    the input widget and an earlier answer still in the output pane. *)
Definition sample_panel (model : option (option exn)) : panel_state :=
  {| bot_state := fresh_state plain_bot; self_model := model;
     input_text_value := "hello"; output_text_object := "earlier answer";
     logged := [] |}.

(** ** The repository chat of cli/repo.py *)

(** The keyword arguments of the [QueryBot] that [chat] constructs. *)
Record QueryBot_args : Type := {
  qb_system_prompt : string;
  collection_name : string;
  document_paths : list string;
  qb_model_name : string
}.

(** What [chat] does to the terminal and to the bot: what [print] and
    [typer.echo] wrote, one entry per call, the bots constructed, and the
    queries the bot received. *)
Record terminal : Type := {
  printed : list string;
  constructed : list QueryBot_args;
  asked : list string
}.

Definition with_printed (out : list string) (t : terminal) : terminal :=
  {| printed := out; constructed := constructed t; asked := asked t |}.

(** [print(line)] and [typer.echo(line)]. *)
Definition echo (line : string) (t : terminal) : terminal :=
  with_printed (printed t ++ [line]) t.

(** What [chat] calls and is not among the sources: the temporary directory,
    git, [Path.rglob], [QueryBot], and [uniform_prompt] and [exit_if_asked]
    of cli/utils. Each returns or raises; [uniform_prompt] hands out the
    lines the user types, and raises [end_of_input] when there is none
    left. *)
Record collaborators : Type := {
  TemporaryDirectory : result string;
  clone_from : string -> string -> option exn;
  git_checkout : string -> option exn;
  rglob : string -> string -> list string;
  QueryBot : QueryBot_args -> option exn;
  bot_call : QueryBot_args -> string -> option exn;
  end_of_input : exn;
  exit_if_asked : string -> option exn
}.

(** [str(n)] for a length. *)
Definition decimal (n : nat) : string :=
  NilEmpty.string_of_uint (Nat.to_uint n).

(** The line that line 46 prints. *)
Definition found_line (files : list string) (extension : string) : string :=
  "Found " ++ decimal (length files) ++ " files with extension "
  ++ extension ++ ".".

(** The loop of lines 44-47 over the extensions, with the accumulator
    [source_files]; [glob] is [root_dir.rglob]. *)
Fixpoint discover (glob : string -> list string) (extensions : list string)
    (source_files : list string) (t : terminal) : list string * terminal :=
  match extensions with
  | [] => (source_files, t)
  | extension :: rest =>
      let files := glob ("*." ++ extension)%string in
      let t := echo (found_line files extension) t in
      discover glob rest (source_files ++ files) t
  end.

Definition two_newlines : string :=
  String (Ascii.ascii_of_nat 10) (String (Ascii.ascii_of_nat 10) "").

(** The loop of lines 56-60, [while True], over the lines the user types. *)
Fixpoint chat_loop (env : collaborators) (bot : QueryBot_args)
    (typed : list string) (t : terminal) : result unit * terminal :=
  match typed with
  | [] => (Raise (end_of_input env), t)
  | query :: rest =>
      match exit_if_asked env query with
      | Some e => (Raise e, t)
      | None =>
          let t :=
            {| printed := printed t; constructed := constructed t;
               asked := asked t ++ [query] |} in
          match bot_call env bot query with
          | Some e => (Raise e, t)
          | None => chat_loop env bot rest (echo two_newlines t)
          end
      end
  end.

Definition repository_prompt : string :=
  "You are a knowledgeable git repository author. Your answers come from the repository. If the answer is not in the repository, say 'I don't know'.".

(** The arguments with which [chat] constructs its bot, lines 49-54. *)
Definition chat_bot (env : collaborators) (root_dir repo_url : string)
    (source_file_extensions : list string) (model_name : string)
    : QueryBot_args :=
  {| qb_system_prompt := repository_prompt;
     collection_name := repo_url;
     document_paths :=
       flat_map
         (fun extension => rglob env root_dir ("*." ++ extension)%string)
         source_file_extensions;
     qb_model_name := model_name |}.

(** [chat], lines 14-60, run on the lines the user types. *)
Definition chat (env : collaborators) (repo_url checkout : string)
    (source_file_extensions : list string) (model_name : string)
    (typed : list string) (t : terminal) : result unit * terminal :=
  match TemporaryDirectory env with
  | Raise e => (Raise e, t)
  | Return temp_dir =>
      match clone_from env repo_url temp_dir with
      | Some e => (Raise e, t)
      | None =>
          match git_checkout env checkout with
          | Some e => (Raise e, t)
          | None =>
              let root_dir := temp_dir in
              let (source_files, t) :=
                discover (rglob env root_dir) source_file_extensions [] t in
              let bot :=
                {| qb_system_prompt := repository_prompt;
                   collection_name := repo_url;
                   document_paths := source_files;
                   qb_model_name := model_name |} in
              match QueryBot env bot with
              | Some e => (Raise e, t)
              | None =>
                  chat_loop env bot typed
                    {| printed := printed t;
                       constructed := constructed t ++ [bot];
                       asked := asked t |}
              end
          end
      end
  end.

(** The defaults of [chat]: the branch, the extensions and the model. *)
Definition default_checkout : string := "main".
Definition default_source_file_extensions : list string :=
  ["py"; "jl"; "R"; "ipynb"; "md"; "tex"; "txt"; "lr"; "rst"].
Definition default_chat_model_name : string := "mistral/mistral-medium".

(** A repository with two Python files and a README, a bot that answers
    every query, and a user who leaves with "exit" or "quit". *)
Definition SystemExit : exn := Exn "SystemExit" "".
Definition EOFError : exn := Exn "EOFError" "".

Definition sample_collaborators : collaborators :=
  {| TemporaryDirectory := Return "/tmp/tmpabc";
     clone_from := fun _ _ => None;
     git_checkout := fun _ => None;
     rglob := fun _ pattern =>
       if String.eqb pattern "*.py" then ["a.py"; "pkg/b.py"]
       else if String.eqb pattern "*.md" then ["README.md"]
       else [];
     QueryBot := fun _ => None;
     bot_call := fun _ _ => None;
     end_of_input := EOFError;
     exit_if_asked := fun query =>
       if String.eqb query "exit" || String.eqb query "quit"
       then Some SystemExit else None |}.

Definition empty_terminal : terminal :=
  {| printed := []; constructed := []; asked := [] |}.

(** A query is answered when it is not an exit request and the bot returns
    on it. *)
Definition answered_by (env : collaborators) (bot : QueryBot_args)
    (query : string) : Prop :=
  exit_if_asked env query = None /\ bot_call env bot query = None.

Definition RetrievalError : exn := Exn "RetrievalError" "index unavailable".

(** The same collaborators, with a bot that raises on the query "boom". *)
Definition fragile_collaborators : collaborators :=
  {| TemporaryDirectory := TemporaryDirectory sample_collaborators;
     clone_from := clone_from sample_collaborators;
     git_checkout := git_checkout sample_collaborators;
     rglob := rglob sample_collaborators;
     QueryBot := QueryBot sample_collaborators;
     bot_call := fun _ query =>
       if String.eqb query "boom" then Some RetrievalError else None;
     end_of_input := EOFError;
     exit_if_asked := exit_if_asked sample_collaborators |}.

(** The bot that [chat] constructs for the sample repository. *)
Definition sample_chat_bot : QueryBot_args :=
  chat_bot sample_collaborators "/tmp/tmpabc" "https://example.org/r.git"
    ["py"; "md"; "py"] default_chat_model_name.

Create HintDb frame.

(** * Properties *)

(** ** Strings and states *)

Lemma append_empty_r (a : string) : (a ++ "")%string = a.
Proof.
  induction a as [|ch a IH]; simpl; [reflexivity | now rewrite IH].
Qed.

Lemma append_assoc (a b c : string) :
  ((a ++ b) ++ c)%string = (a ++ (b ++ c))%string.
Proof.
  induction a as [|ch a IH]; simpl; [reflexivity | now rewrite IH].
Qed.

Lemma concat_cons (x : string) (xs : list string) :
  String.concat "" (x :: xs) = (x ++ String.concat "" xs)%string.
Proof.
  destruct xs as [|y ys]; simpl; [now rewrite append_empty_r | reflexivity].
Qed.

Lemma with_stdout_same (s : state) : with_stdout (stdout s) s = s.
Proof. now destruct s. Qed.

(** ** The accumulation loop *)

Lemma accumulated_text_fragment (chunk : Chunk) (rest : list Chunk)
    (fragment : string) :
  chunk_content chunk = Some (Some fragment) ->
  accumulated_text (chunk :: rest) = (fragment ++ accumulated_text rest)%string.
Proof.
  intros H. unfold accumulated_text. simpl. rewrite H. apply concat_cons.
Qed.

Lemma accumulated_text_null (chunk : Chunk) (rest : list Chunk) :
  chunk_content chunk = Some None ->
  accumulated_text (chunk :: rest) = accumulated_text rest.
Proof.
  intros H. unfold accumulated_text. simpl. now rewrite H.
Qed.

(** On well-formed chunks the loop prints the accumulated text; it then
    returns the accumulator followed by that text, or raises the fault that
    ends the stream. *)
Lemma accumulate_well_formed (chunks : list Chunk) (fault : option exn) :
  forallb well_formed chunks = true ->
  forall (ai_message : string) (s : state),
    accumulate chunks fault ai_message s
    = (match fault with
       | None => Return (ai_message ++ accumulated_text chunks)%string
       | Some e => Raise e
       end,
       with_stdout (stdout s ++ accumulated_text chunks) s).
Proof.
  induction chunks as [|chunk rest IH]; intros Hwf acc s.
  - simpl. unfold accumulated_text. simpl.
    rewrite !append_empty_r, with_stdout_same. now destruct fault.
  - simpl in Hwf. apply andb_prop in Hwf. destruct Hwf as [Hc Hrest].
    specialize (IH Hrest).
    destruct chunk as [cs]. destruct cs as [|choice cs]; [discriminate|].
    destruct choice as [[[fragment|]]].
    + rewrite (accumulated_text_fragment _ rest fragment) by reflexivity.
      simpl. unfold bind, index0, ret, print. simpl.
      rewrite IH. simpl. now rewrite !append_assoc.
    + rewrite accumulated_text_null by reflexivity.
      simpl. unfold bind, index0, ret. simpl. apply IH.
Qed.

(** A chunk without a first choice stops the loop with [IndexError]; what
    came before it stays printed. *)
Lemma accumulate_ill_formed (before after : list Chunk) (chunk : Chunk)
    (fault : option exn) :
  forallb well_formed before = true ->
  well_formed chunk = false ->
  forall (ai_message : string) (s : state),
    accumulate (before ++ chunk :: after) fault ai_message s
    = (Raise IndexError, with_stdout (stdout s ++ accumulated_text before) s).
Proof.
  induction before as [|b before IH]; intros Hwf Hbad acc s.
  - destruct chunk as [[|c cs]]; [|discriminate].
    simpl. unfold bind, index0, raise, accumulated_text. simpl.
    now rewrite append_empty_r, with_stdout_same.
  - simpl in Hwf. apply andb_prop in Hwf. destruct Hwf as [Hb Hrest].
    specialize (IH Hrest Hbad).
    destruct b as [cs]. destruct cs as [|choice cs]; [discriminate|].
    destruct choice as [[[fragment|]]].
    + rewrite (accumulated_text_fragment _ before fragment) by reflexivity.
      simpl. unfold bind, index0, ret, print. simpl.
      rewrite IH. simpl. now rewrite !append_assoc.
    + rewrite accumulated_text_null by reflexivity.
      simpl. unfold bind, index0, ret. simpl. apply IH.
Qed.

(** The accumulated text of a sequence of chunks is that of its parts, in the
    order of the parts. *)
Lemma accumulated_text_app (before after : list Chunk) :
  accumulated_text (before ++ after)
  = (accumulated_text before ++ accumulated_text after)%string.
Proof.
  induction before as [|chunk before IH]; [reflexivity|].
  change ((chunk :: before) ++ after) with (chunk :: (before ++ after)).
  destruct (chunk_content chunk) as [[fragment|]|] eqn:E.
  - rewrite !(accumulated_text_fragment _ _ fragment) by exact E.
    now rewrite IH, append_assoc.
  - rewrite !accumulated_text_null by exact E. exact IH.
  - unfold accumulated_text in *. simpl. rewrite E. exact IH.
Qed.

(** Whatever the chunks, the loop changes nothing but what is printed. *)
Lemma accumulate_prints_only (chunks : list Chunk) (fault : option exn) :
  forall (ai_message : string) (s : state),
    exists out : string,
      snd (accumulate chunks fault ai_message s) = with_stdout out s.
Proof.
  induction chunks as [|chunk rest IH]; intros acc s.
  - exists (stdout s). simpl. rewrite with_stdout_same. now destruct fault.
  - destruct chunk as [[|[[[fragment|]]] cs]]; simpl;
      unfold bind, index0, raise, ret, print; simpl.
    + exists (stdout s). now rewrite with_stdout_same.
    + destruct (IH (acc ++ fragment)%string
                  (with_stdout (stdout s ++ fragment) s)) as [out Hout].
      exists out. now rewrite Hout.
    + apply IH.
Qed.

(** ** The generation step *)

(** The generation step, with its sequence of effects written out. *)
Lemma generate_response_unfold (messages : list message) (s : state) :
  generate_response messages s
  = let req := request_of (self s) messages in
    let s1 := with_requests (requests s ++ [req]) s in
    match create (client (self s)) req with
    | Raise e => (Raise e, s1)
    | Return (Stream chunks fault) =>
        if streaming (self s)
        then (ai_message <- accumulate chunks fault "" ;;
              ret (VMessage (Message assistant ai_message))) s1
        else (Raise AttributeError, s1)
    | Return (Payload p) =>
        if streaming (self s)
        then (Raise TypeError, s1)
        else (choice <- index0 (choices p) ;; ret (VStr (text choice))) s1
    end.
Proof.
  unfold generate_response, bind, attr, create_completion, request_of. simpl.
  destruct (create _ _) as [[chunks fault|p]|e]; destruct (streaming (self s));
    reflexivity.
Qed.

(** The generation step sends one request, and besides that only prints. *)
Lemma generate_response_state (messages : list message) (s : state) :
  exists out : string,
    snd (generate_response messages s)
    = with_stdout out
        (with_requests (requests s ++ [request_of (self s) messages]) s).
Proof.
  rewrite generate_response_unfold. cbv zeta.
  set (s1 := with_requests _ s).
  assert (Hsame : with_stdout (stdout s) s1 = s1) by apply (with_stdout_same s1).
  destruct (create _ _) as [[chunks fault|p]|e]; destruct (streaming (self s));
    try (exists (stdout s); simpl; now rewrite Hsame).
  - destruct (accumulate_prints_only chunks fault "" s1) as [out Hout].
    exists out. unfold bind.
    destruct (accumulate chunks fault "" s1) as [[a|e] s2]; simpl in *;
      now subst.
  - exists (stdout s). destruct p as [[|choice rest]]; simpl;
      unfold bind, index0, raise, ret; simpl; now rewrite Hsame.
Qed.

(** The streaming branch on well-formed chunks: the accumulated text, wrapped
    in an AI message, with the text printed. *)
Lemma stream_branch (chunks : list Chunk) (fault : option exn) (s : state) :
  forallb well_formed chunks = true ->
  (ai_message <- accumulate chunks fault "" ;;
   ret (VMessage (Message assistant ai_message))) s
  = (match fault with
     | None => Return (VMessage (Message assistant (accumulated_text chunks)))
     | Some e => Raise e
     end,
     with_stdout (stdout s ++ accumulated_text chunks) s).
Proof.
  intros Hwf. unfold bind.
  rewrite (accumulate_well_formed chunks fault Hwf). now destruct fault.
Qed.

(** C2. In streaming mode, for every finite sequence of chunks that the
    client streams to its end, each chunk carrying a content or null,
    [generate_response] accumulates the non-null contents in arrival order,
    null contents adding nothing: its result carries [accumulated_text
    chunks], which it has also printed. *)
Theorem generate_response_streaming_accumulates :
  forall (messages : list message) (s : state) (chunks : list Chunk),
    streaming (self s) = true ->
    create (client (self s)) (request_of (self s) messages)
    = Return (Stream chunks None) ->
    forallb well_formed chunks = true ->
    generate_response messages s
    = (Return (VMessage (Message assistant (accumulated_text chunks))),
       with_stdout (stdout s ++ accumulated_text chunks)
         (with_requests (requests s ++ [request_of (self s) messages]) s)).
Proof.
  intros messages s chunks Hstream Hcreate Hwf.
  rewrite generate_response_unfold. cbv zeta.
  rewrite Hcreate, Hstream. now rewrite stream_branch.
Qed.

(** The chunks "Hel", "lo", null, " world" accumulate to "Hello world". *)
Lemma generate_response_hello_world :
  generate_response (messages_of streaming_bot "hi") (fresh_state streaming_bot)
  = (Return (VMessage (Message assistant "Hello world")),
     with_stdout "Hello world"
       (with_requests
          [request_of streaming_bot (messages_of streaming_bot "hi")]
          (fresh_state streaming_bot))).
Proof.
  exact (generate_response_streaming_accumulates
           (messages_of streaming_bot "hi") (fresh_state streaming_bot)
           hello_chunks eq_refl eq_refl eq_refl).
Defined.

(** C3. What [generate_response] returns depends on the streaming flag: with
    streaming on, the accumulated text wrapped in an AI message; with
    streaming off, the text of the payload's first choice as a plain string. *)
Theorem generate_response_return_type :
  forall (messages : list message) (s : state),
    (forall chunks : list Chunk,
        streaming (self s) = true ->
        create (client (self s)) (request_of (self s) messages)
        = Return (Stream chunks None) ->
        forallb well_formed chunks = true ->
        fst (generate_response messages s)
        = Return (VMessage (Message assistant (accumulated_text chunks))))
    /\
    (forall (choice : Choice) (others : list Choice),
        streaming (self s) = false ->
        create (client (self s)) (request_of (self s) messages)
        = Return (Payload {| choices := choice :: others |}) ->
        fst (generate_response messages s) = Return (VStr (text choice))).
Proof.
  intros messages s. split.
  - intros chunks Hstream Hcreate Hwf.
    rewrite generate_response_unfold. cbv zeta.
    rewrite Hcreate, Hstream. now rewrite stream_branch.
  - intros choice others Hstream Hcreate.
    rewrite generate_response_unfold. cbv zeta.
    now rewrite Hcreate, Hstream.
Qed.

(** A stream gives a message, and the payload "Hi there" gives the plain
    string "Hi there". *)
Lemma generate_response_return_type_samples :
  fst (generate_response (messages_of streaming_bot "hi")
         (fresh_state streaming_bot))
  = Return (VMessage (Message assistant "Hello world"))
  /\
  fst (generate_response (messages_of plain_bot "hi") (fresh_state plain_bot))
  = Return (VStr "Hi there").
Proof.
  split.
  - exact (proj1 (generate_response_return_type
                    (messages_of streaming_bot "hi")
                    (fresh_state streaming_bot))
             hello_chunks eq_refl eq_refl eq_refl).
  - exact (proj2 (generate_response_return_type
                    (messages_of plain_bot "hi") (fresh_state plain_bot))
             {| text := "Hi there" |} [] eq_refl eq_refl).
Defined.

(** ** The call *)

(** The call, with the generation step it runs first written out. *)
Lemma call_with_unfold (recorder : string -> value -> option exn)
    (gen : list message -> M value) (human_message : string) (s : state) :
  call_with recorder gen human_message s
  = match gen (messages_of (self s) human_message) s with
    | (Return response, s1) =>
        (match recorder human_message response with
         | None => AIMessage response
         | Some e => Raise e
         end,
         with_recorded (recorded s1 ++ [(human_message, response)]) s1)
    | (Raise e, s1) => (Raise e, s1)
    end.
Proof.
  unfold call_with, bind, attr, autorecord, messages_of. simpl.
  destruct (gen _ s) as [[response|e] s1]; [|reflexivity].
  now destruct (recorder human_message response).
Qed.

(** C4. If the client raises a fault during the generation step, when it is
    called or while its stream is read, [__call__] raises that same fault,
    returns no message, does not invoke the recorder, and has sent the
    request once. *)
Theorem call_raises_client_fault :
  forall (recorder : string -> value -> option exn) (human_message : string)
         (s : state) (e : exn),
    client_raises (client (self s))
      (request_of (self s) (messages_of (self s) human_message)) e ->
    fst (__call__ recorder human_message s) = Raise e
    /\ recorded (snd (__call__ recorder human_message s)) = recorded s
    /\ requests (snd (__call__ recorder human_message s))
       = requests s
         ++ [request_of (self s) (messages_of (self s) human_message)].
Proof.
  intros recorder h s e [Hcreate | [chunks [Hstream [Hcreate Hwf]]]];
    unfold __call__; rewrite call_with_unfold, generate_response_unfold;
    cbv zeta; rewrite Hcreate.
  - repeat split; reflexivity.
  - simpl in Hstream. rewrite Hstream, stream_branch by exact Hwf.
    repeat split; reflexivity.
Qed.

(** A client that raises [APIError] when called, and one whose stream raises
    [APIError] after two chunks, each with a recorder that would fail too:
    the caller gets [APIError] and the recorder was not reached. *)
Lemma call_raises_client_fault_sample :
  (fst (__call__ failing_recorder "hi" (fresh_state down_bot)) = Raise APIError
   /\ recorded (snd (__call__ failing_recorder "hi" (fresh_state down_bot)))
      = []
   /\ requests (snd (__call__ failing_recorder "hi" (fresh_state down_bot)))
      = [request_of down_bot (messages_of down_bot "hi")])
  /\
  (fst (__call__ failing_recorder "hi" (fresh_state broken_bot))
   = Raise APIError
   /\ recorded (snd (__call__ failing_recorder "hi" (fresh_state broken_bot)))
      = []
   /\ requests (snd (__call__ failing_recorder "hi" (fresh_state broken_bot)))
      = [request_of broken_bot (messages_of broken_bot "hi")]).
Proof.
  split.
  - exact (call_raises_client_fault failing_recorder "hi"
             (fresh_state down_bot) APIError (or_introl eq_refl)).
  - exact (call_raises_client_fault failing_recorder "hi"
             (fresh_state broken_bot) APIError
             (or_intror
                (ex_intro _ [chunk_of (Some "Hel"); chunk_of (Some "lo")]
                   (conj eq_refl (conj eq_refl eq_refl))))).
Defined.

(** C5, as the code has it. Once the generation step has returned a response,
    the recorder is invoked with the human message and that response, and a
    fault it raises is not caught: the call raises that fault and returns no
    message. Only when the recorder returns does the call go on to
    [AIMessage(content=response)], whose outcome is then the outcome of the
    call: the AI message for a response that is text, [ValidationError] for
    one that is not. *)
Theorem call_outcome_is_recorder_outcome :
  forall (recorder : string -> value -> option exn) (human_message : string)
         (s s1 : state) (response : value),
    generate_response (messages_of (self s) human_message) s
    = (Return response, s1) ->
    __call__ recorder human_message s
    = (match recorder human_message response with
       | None => AIMessage response
       | Some e => Raise e
       end,
       with_recorded (recorded s1 ++ [(human_message, response)]) s1).
Proof.
  intros recorder h s s1 response Hgen.
  unfold __call__. rewrite call_with_unfold. now rewrite Hgen.
Qed.

(** With a recorder that raises, the call raises the recorder's fault. *)
Lemma call_outcome_is_recorder_outcome_sample :
  __call__ failing_recorder "hi" (fresh_state plain_bot)
  = (Raise RecorderError,
     with_recorded [("hi", VStr "Hi there")]
       (with_requests [request_of plain_bot (messages_of plain_bot "hi")]
          (fresh_state plain_bot))).
Proof.
  exact (call_outcome_is_recorder_outcome failing_recorder "hi"
           (fresh_state plain_bot)
           (with_requests [request_of plain_bot (messages_of plain_bot "hi")]
              (fresh_state plain_bot))
           (VStr "Hi there") eq_refl).
Defined.

(** C5, as the spec has it, fails: the generation step returns "Hi there",
    the recorder raises, and the call raises the recorder's fault instead of
    returning an AI message. *)
Lemma recorder_fault_reaches_caller :
  fst (generate_response (messages_of plain_bot "hi") (fresh_state plain_bot))
  = Return (VStr "Hi there")
  /\ failing_recorder "hi" (VStr "Hi there") = Some RecorderError
  /\ fst (__call__ failing_recorder "hi" (fresh_state plain_bot))
     = Raise RecorderError
  /\ (forall m : message,
        fst (__call__ failing_recorder "hi" (fresh_state plain_bot))
        <> Return m).
Proof.
  repeat split. intros m H. discriminate H.
Qed.

(** C1, on the code. With [generate_response] replaced by a mock that returns
    the AI message [R], the recorder is invoked once, with the human message
    and [R]; then line 64 hands [R], which is not text, to [AIMessage] as
    content: when the recorder returns, the call raises [ValidationError],
    and in no case does it return a message, whose content could equal the
    content of [R]. *)
Theorem mocked_call_wraps_the_message :
  forall (recorder : string -> value -> option exn) (human_message : string)
         (s : state) (R : message),
    call_with recorder (mock_generate_response R) human_message s
    = (Raise (match recorder human_message (VMessage R) with
              | None => ValidationError
              | Some e => e
              end),
       with_recorded (recorded s ++ [(human_message, VMessage R)]) s)
    /\ forall m : message,
         fst (call_with recorder (mock_generate_response R) human_message s)
         <> Return m.
Proof.
  intros recorder h s R. rewrite call_with_unfold.
  unfold mock_generate_response, ret. simpl.
  destruct (recorder h (VMessage R)); split; try reflexivity;
    intros m H; discriminate H.
Qed.

(** The run of [test_simple_bot_call] at the empty human message: the call
    raises [ValidationError] after the recorder was invoked once, where the
    test asserts a result with content "Test response". *)
Lemma test_simple_bot_call_run :
  call_with quiet_recorder (mock_generate_response test_response) ""
    (fresh_state down_bot)
  = (Raise ValidationError,
     with_recorded [("", VMessage (Message assistant "Test response"))]
       (fresh_state down_bot)).
Proof. reflexivity. Qed.




(** ** Construction *)

(** The constructor, with its sequence of assignments written out. *)
Lemma init_unfold (make_client : string -> result Client)
    (sp : string) (t : float) (m : string) (st : bool) (s : state) :
  __init__ make_client sp t m st s
  = match make_client m with
    | Return c =>
        (Return tt,
         with_self
           {| system_prompt := Message system sp; client := c;
              model_name := m; temperature := t; streaming := st |} s)
    | Raise e =>
        (Raise e,
         with_self
           {| system_prompt := Message system sp;
              client := client (self s); model_name := model_name (self s);
              temperature := temperature (self s);
              streaming := streaming (self s) |} s)
    end.
Proof.
  unfold __init__, bind, lift. simpl. now destruct (make_client m).
Qed.

(** Executing the class body looks the configured default model name up,
    once. *)
Lemma class_SimpleBot_run (s : state) :
  class_SimpleBot s
  = (Return {| default_temperature := 0.0%float;
               default_model_name := DEFAULT_LANGUAGE_MODEL s;
               default_streaming := true |},
     with_default_lookups (S (default_lookups s)) s).
Proof. reflexivity. Qed.

(** C6. For every system prompt, temperature (in [0,1] or not), model name
    and streaming flag, when the factory resolves the model name, the
    constructed instance holds the System message whose content is the given
    prompt, the resolved client, and the model name, temperature and streaming
    flag as given; an omitted temperature is 0.0 and an omitted streaming
    flag is true. *)
Theorem constructor_stores_arguments :
  forall (make_client : string -> result Client) (s0 s : state)
         (cls : defaults) (sp : string) (t : option float)
         (m : option string) (st : option bool) (c : Client),
    fst (class_SimpleBot s0) = Return cls ->
    make_client (or_default m (default_model_name cls)) = Return c ->
    SimpleBot_new make_client cls sp t m st s
    = (Return tt,
       with_self
         {| system_prompt := Message system sp;
            client := c;
            model_name := or_default m (default_model_name cls);
            temperature := or_default t 0.0%float;
            streaming := or_default st true |} s)
    /\ content (system_prompt (self (snd (SimpleBot_new make_client cls sp t m st s))))
       = sp.
Proof.
  intros make_client s0 s cls sp t m st c Hcls Hclient.
  rewrite class_SimpleBot_run in Hcls. simpl in Hcls.
  injection Hcls as <-. simpl in *.
  unfold SimpleBot_new. rewrite init_unfold. simpl. rewrite Hclient.
  split; reflexivity.
Qed.

(** All arguments given, and all optional arguments omitted. *)
Lemma constructor_stores_arguments_sample :
  (SimpleBot_new (resolve_to plain_client) sample_defaults "Be brief."
     (Some 0.25%float) (Some "mistral/mistral-medium") (Some false)
     (fresh_state down_bot)
   = (Return tt,
      with_self
        {| system_prompt := Message system "Be brief.";
           client := plain_client;
           model_name := "mistral/mistral-medium";
           temperature := 0.25%float;
           streaming := false |} (fresh_state down_bot))
   /\ content (system_prompt (self (snd
        (SimpleBot_new (resolve_to plain_client) sample_defaults "Be brief."
           (Some 0.25%float) (Some "mistral/mistral-medium") (Some false)
           (fresh_state down_bot)))))
      = "Be brief.")
  /\
  (SimpleBot_new (resolve_to stream_client) sample_defaults "" None None None
     (fresh_state down_bot)
   = (Return tt,
      with_self
        {| system_prompt := Message system "";
           client := stream_client;
           model_name := "gpt-3.5-turbo";
           temperature := 0.0%float;
           streaming := true |} (fresh_state down_bot))
   /\ content (system_prompt (self (snd
        (SimpleBot_new (resolve_to stream_client) sample_defaults "" None None
           None (fresh_state down_bot)))))
      = "").
Proof.
  split.
  - exact (constructor_stores_arguments (resolve_to plain_client)
             (fresh_state down_bot) (fresh_state down_bot) sample_defaults
             "Be brief." (Some 0.25%float) (Some "mistral/mistral-medium")
             (Some false) plain_client eq_refl eq_refl).
  - exact (constructor_stores_arguments (resolve_to stream_client)
             (fresh_state down_bot) (fresh_state down_bot) sample_defaults
             "" None None None stream_client eq_refl eq_refl).
Defined.

(** C10. The default model name is looked up once, when the class body
    runs: whatever the configuration is changed to afterwards, a bot
    constructed without a model name gets the name that was configured at
    class definition, and its construction looks nothing up. *)
Theorem default_model_name_fixed_at_class_definition :
  forall (make_client : string -> result Client) (s0 s0' s : state)
         (cls : defaults) (later : string) (sp : string) (t : option float)
         (st : option bool) (c : Client),
    class_SimpleBot s0 = (Return cls, s0') ->
    make_client (DEFAULT_LANGUAGE_MODEL s0) = Return c ->
    default_lookups s0' = S (default_lookups s0)
    /\ fst (SimpleBot_new make_client cls sp t None st
              (snd (configure later s)))
       = Return tt
    /\ model_name
         (self (snd (SimpleBot_new make_client cls sp t None st
                       (snd (configure later s)))))
       = DEFAULT_LANGUAGE_MODEL s0
    /\ DEFAULT_LANGUAGE_MODEL
         (snd (SimpleBot_new make_client cls sp t None st
                 (snd (configure later s))))
       = later
    /\ default_lookups
         (snd (SimpleBot_new make_client cls sp t None st
                 (snd (configure later s))))
       = default_lookups s.
Proof.
  intros make_client s0 s0' s cls later sp t st c Hcls Hclient.
  rewrite class_SimpleBot_run in Hcls. injection Hcls as <- <-.
  unfold SimpleBot_new. rewrite init_unfold. simpl. rewrite Hclient.
  repeat split.
Qed.

(** The class body runs while "gpt-3.5-turbo" is configured; the
    configuration is then changed to "gpt-4-turbo"; a bot constructed
    afterwards without a model name still gets "gpt-3.5-turbo". *)
Lemma default_model_name_fixed_sample :
  default_lookups
    (with_default_lookups 1 (fresh_state down_bot)) = 1
  /\ fst (SimpleBot_new (resolve_to stream_client) sample_defaults "" None None
         None
         (snd (configure "gpt-4-turbo"
                 (with_default_lookups 1 (fresh_state down_bot)))))
     = Return tt
  /\ model_name
       (self (snd (SimpleBot_new (resolve_to stream_client) sample_defaults ""
                     None None None
                     (snd (configure "gpt-4-turbo"
                             (with_default_lookups 1 (fresh_state down_bot)))))))
     = "gpt-3.5-turbo"
  /\ DEFAULT_LANGUAGE_MODEL
       (snd (SimpleBot_new (resolve_to stream_client) sample_defaults ""
               None None None
               (snd (configure "gpt-4-turbo"
                       (with_default_lookups 1 (fresh_state down_bot))))))
     = "gpt-4-turbo"
  /\ default_lookups
       (snd (SimpleBot_new (resolve_to stream_client) sample_defaults ""
               None None None
               (snd (configure "gpt-4-turbo"
                       (with_default_lookups 1 (fresh_state down_bot))))))
     = 1.
Proof.
  exact (default_model_name_fixed_at_class_definition
           (resolve_to stream_client) (fresh_state down_bot)
           (with_default_lookups 1 (fresh_state down_bot))
           (with_default_lookups 1 (fresh_state down_bot)) sample_defaults
           "gpt-4-turbo" "" None None stream_client eq_refl eq_refl).
Defined.

(** ** Calls leave the instance alone *)

Lemma keeps_self_ret {A : Type} (a : A) : keeps_self (ret a).
Proof. intros s. reflexivity. Qed.

Lemma keeps_self_raise {A : Type} (e : exn) : keeps_self (@raise A e).
Proof. intros s. reflexivity. Qed.

Lemma keeps_self_lift {A : Type} (r : result A) : keeps_self (lift r).
Proof. intros s. reflexivity. Qed.

Lemma keeps_self_attr {A : Type} (field : SimpleBot -> A) :
  keeps_self (attr field).
Proof. intros s. reflexivity. Qed.

Lemma keeps_self_print (fragment : string) : keeps_self (print fragment).
Proof. intros s. reflexivity. Qed.

Lemma keeps_self_index0 {A : Type} (xs : list A) : keeps_self (index0 xs).
Proof. intros s. now destruct xs. Qed.

Lemma keeps_self_create_completion (req : request) :
  keeps_self (create_completion req).
Proof. intros s. reflexivity. Qed.

Lemma keeps_self_autorecord (recorder : string -> value -> option exn)
    (prompt : string) (response : value) :
  keeps_self (autorecord recorder prompt response).
Proof.
  intros s. unfold autorecord. now destruct (recorder prompt response).
Qed.

Lemma keeps_self_bind {A B : Type} (m : M A) (k : A -> M B) :
  keeps_self m -> (forall a : A, keeps_self (k a)) -> keeps_self (bind m k).
Proof.
  intros Hm Hk s. unfold bind. specialize (Hm s).
  destruct (m s) as [[a|e] s1]; simpl in *.
  - now rewrite Hk.
  - exact Hm.
Qed.

Lemma reads_self_only_ret {A : Type} (a : A) : reads_self_only (ret a).
Proof. intros s s' _. reflexivity. Qed.

Lemma reads_self_only_raise {A : Type} (e : exn) :
  reads_self_only (@raise A e).
Proof. intros s s' _. reflexivity. Qed.

Lemma reads_self_only_lift {A : Type} (r : result A) :
  reads_self_only (lift r).
Proof. intros s s' _. reflexivity. Qed.

Lemma reads_self_only_attr {A : Type} (field : SimpleBot -> A) :
  reads_self_only (attr field).
Proof. intros s s' H. unfold attr. simpl. now rewrite H. Qed.

Lemma reads_self_only_print (fragment : string) :
  reads_self_only (print fragment).
Proof. intros s s' _. reflexivity. Qed.

Lemma reads_self_only_index0 {A : Type} (xs : list A) :
  reads_self_only (index0 xs).
Proof. intros s s' _. now destruct xs. Qed.

Lemma reads_self_only_create_completion (req : request) :
  reads_self_only (create_completion req).
Proof. intros s s' H. unfold create_completion. simpl. now rewrite H. Qed.

Lemma reads_self_only_autorecord (recorder : string -> value -> option exn)
    (prompt : string) (response : value) :
  reads_self_only (autorecord recorder prompt response).
Proof.
  intros s s' _. unfold autorecord. now destruct (recorder prompt response).
Qed.

Lemma reads_self_only_bind {A B : Type} (m : M A) (k : A -> M B) :
  keeps_self m -> reads_self_only m ->
  (forall a : A, reads_self_only (k a)) ->
  reads_self_only (bind m k).
Proof.
  intros Hkeep Hm Hk s s' Hself. unfold bind.
  pose proof (Hm s s' Hself) as Hfst.
  pose proof (Hkeep s) as Hs. pose proof (Hkeep s') as Hs'.
  destruct (m s) as [r s1], (m s') as [r' s1']. simpl in *. subst r'.
  destruct r as [a|e]; [|reflexivity].
  apply Hk. congruence.
Qed.

#[local] Hint Resolve keeps_self_ret keeps_self_raise keeps_self_lift
  reads_self_only_lift keeps_self_attr
  keeps_self_print keeps_self_index0 keeps_self_create_completion
  keeps_self_autorecord keeps_self_bind
  reads_self_only_ret reads_self_only_raise reads_self_only_attr
  reads_self_only_print reads_self_only_index0
  reads_self_only_create_completion reads_self_only_autorecord
  reads_self_only_bind : frame.

Lemma keeps_self_accumulate (chunks : list Chunk) (fault : option exn) :
  forall ai_message : string, keeps_self (accumulate chunks fault ai_message).
Proof.
  induction chunks as [|chunk rest IH]; intros acc; simpl;
    [destruct fault; auto with frame|].
  apply keeps_self_bind; auto with frame.
  intros choice. destruct (delta_content (delta choice)); auto with frame.
Qed.

Lemma reads_self_only_accumulate (chunks : list Chunk) (fault : option exn) :
  forall ai_message : string,
    reads_self_only (accumulate chunks fault ai_message).
Proof.
  induction chunks as [|chunk rest IH]; intros acc; simpl;
    [destruct fault; auto with frame|].
  apply reads_self_only_bind; auto with frame.
  intros choice. destruct (delta_content (delta choice)); auto with frame.
Qed.

#[local] Hint Resolve keeps_self_accumulate reads_self_only_accumulate : frame.

Lemma keeps_self_generate_response (messages : list message) :
  keeps_self (generate_response messages).
Proof.
  unfold generate_response.
  apply keeps_self_bind; [auto with frame | intros model].
  apply keeps_self_bind; [auto with frame | intros temp].
  apply keeps_self_bind; [auto with frame | intros stream].
  apply keeps_self_bind; [auto with frame | intros response].
  apply keeps_self_bind; [auto with frame | intros flag].
  destruct flag, response as [chunks fault|p]; auto 6 with frame.
Qed.

Lemma reads_self_only_generate_response (messages : list message) :
  reads_self_only (generate_response messages).
Proof.
  unfold generate_response.
  apply reads_self_only_bind; [auto with frame .. | intros model].
  apply reads_self_only_bind; [auto with frame .. | intros temp].
  apply reads_self_only_bind; [auto with frame .. | intros stream].
  apply reads_self_only_bind; [auto with frame .. | intros response].
  apply reads_self_only_bind; [auto with frame .. | intros flag].
  destruct flag, response as [chunks fault|p]; auto 6 with frame.
Qed.

#[local] Hint Resolve keeps_self_generate_response
  reads_self_only_generate_response : frame.

Lemma keeps_self_call (recorder : string -> value -> option exn)
    (human_message : string) :
  keeps_self (__call__ recorder human_message).
Proof.
  unfold __call__, call_with.
  apply keeps_self_bind; [auto with frame | intros prompt].
  apply keeps_self_bind; [auto with frame | intros human].
  apply keeps_self_bind; [auto with frame | intros response].
  auto with frame.
Qed.

Lemma reads_self_only_call (recorder : string -> value -> option exn)
    (human_message : string) :
  reads_self_only (__call__ recorder human_message).
Proof.
  unfold __call__, call_with.
  apply reads_self_only_bind; [auto with frame .. | intros prompt].
  apply reads_self_only_bind; [auto with frame .. | intros human].
  apply reads_self_only_bind; [auto with frame .. | intros response].
  auto with frame.
Qed.

Lemma run_calls_cons (recorder : string -> value -> option exn)
    (h : string) (hs : list string) (s : state) :
  run_calls recorder (h :: hs) s
  = run_calls recorder hs (snd (__call__ recorder h s)).
Proof. reflexivity. Qed.

(** C7. After any sequence of calls, returned or raised, the attributes of
    the instance (system_prompt, client, model_name, temperature, streaming)
    are those it had before the first call, and a further call has the
    outcome it would have had as the first call: no earlier call leaves a
    trace that a later one reads. *)
Theorem calls_keep_configuration :
  forall (recorder : string -> value -> option exn)
         (human_messages : list string) (s : state),
    self (run_calls recorder human_messages s) = self s
    /\ forall human_message : string,
         fst (__call__ recorder human_message
                (run_calls recorder human_messages s))
         = fst (__call__ recorder human_message s).
Proof.
  intros recorder hs.
  assert (Hself : forall s, self (run_calls recorder hs s) = self s).
  { induction hs as [|h hs IH]; intros s; [reflexivity|].
    rewrite run_calls_cons, IH. apply keeps_self_call. }
  intros s. split; [apply Hself|].
  intros h. apply reads_self_only_call, Hself.
Qed.

(** A call sends exactly one request, the one built from the instance and
    the human message, whatever the client and the recorder do. *)
Lemma call_requests (recorder : string -> value -> option exn)
    (human_message : string) (s : state) :
  requests (snd (__call__ recorder human_message s))
  = requests s
    ++ [request_of (self s) (messages_of (self s) human_message)].
Proof.
  unfold __call__. rewrite call_with_unfold.
  destruct (generate_response_state (messages_of (self s) human_message) s)
    as [out Hout].
  destruct (generate_response _ s) as [[response|e] s1]; simpl in *;
    now subst s1.
Qed.

(** C8. On an instance constructed with system prompt [sp], a call with any
    human message, the empty string included, hands the generation step the
    two messages [System(sp); Human(human_message)], in this order, and the
    client receives them as their {role, content} records, with the model
    name, temperature and streaming flag of the instance. *)
Theorem call_sends_system_then_human :
  forall (make_client : string -> result Client)
         (recorder : string -> value -> option exn)
         (sp : string) (t : float) (m : string) (st : bool)
         (s0 s1 : state) (human_message : string),
    __init__ make_client sp t m st s0 = (Return tt, s1) ->
    (forall gen : list message -> M value,
        call_with recorder gen human_message s1
        = (response <- gen [Message system sp;
                            Message user human_message] ;;
           autorecord recorder human_message response ;;
           lift (AIMessage response)) s1)
    /\ requests (snd (__call__ recorder human_message s1))
       = requests s1
         ++ [ {| req_model := m;
                 req_messages :=
                   [ [("role", VStr "system"); ("content", VStr sp)];
                     [("role", VStr "user");
                      ("content", VStr human_message)] ];
                 req_temperature := t;
                 req_stream := st |} ].
Proof.
  intros make_client recorder sp t m st s0 s1 h Hinit.
  rewrite init_unfold in Hinit.
  destruct (make_client m) as [c|e]; [|discriminate].
  injection Hinit as <-. split.
  - intros gen. reflexivity.
  - rewrite call_requests. reflexivity.
Qed.

(** The empty human message is sent as it is. *)
Lemma call_sends_empty_human_message :
  (forall gen : list message -> M value,
      call_with quiet_recorder gen ""
        (with_self
           {| system_prompt := Message system "Be brief.";
              client := plain_client; model_name := "gpt-4";
              temperature := 0.25%float; streaming := false |}
           (fresh_state down_bot))
      = (response <- gen [Message system "Be brief.";
                          Message user ""] ;;
         autorecord quiet_recorder "" response ;;
         lift (AIMessage response))
          (with_self
             {| system_prompt := Message system "Be brief.";
                client := plain_client; model_name := "gpt-4";
                temperature := 0.25%float; streaming := false |}
             (fresh_state down_bot)))
  /\ requests (snd (__call__ quiet_recorder ""
        (with_self
           {| system_prompt := Message system "Be brief.";
              client := plain_client; model_name := "gpt-4";
              temperature := 0.25%float; streaming := false |}
           (fresh_state down_bot))))
     = [ {| req_model := "gpt-4";
            req_messages :=
              [ [("role", VStr "system"); ("content", VStr "Be brief.")];
                [("role", VStr "user"); ("content", VStr "")] ];
            req_temperature := 0.25%float;
            req_stream := false |} ].
Proof.
  exact (call_sends_system_then_human (resolve_to plain_client) quiet_recorder
           "Be brief." 0.25%float "gpt-4" false (fresh_state down_bot) _ ""
           eq_refl).
Defined.

(** * Further properties of the bridge *)

(** ** The loop over the stream *)

(** Whatever the chunks, the loop only adds to what was printed. *)
Lemma accumulate_appends (chunks : list Chunk) (fault : option exn) :
  forall (ai_message : string) (s : state),
    exists out : string,
      snd (accumulate chunks fault ai_message s)
      = with_stdout (stdout s ++ out) s.
Proof.
  induction chunks as [|chunk rest IH]; intros acc s.
  - exists "". simpl. rewrite append_empty_r, with_stdout_same.
    now destruct fault.
  - destruct chunk as [[|[[[fragment|]]] cs]]; simpl;
      unfold bind, index0, raise, ret, print; simpl.
    + exists "". now rewrite append_empty_r, with_stdout_same.
    + destruct (IH (acc ++ fragment)%string
                  (with_stdout (stdout s ++ fragment) s)) as [out Hout].
      exists (fragment ++ out)%string. rewrite Hout. simpl.
      now rewrite append_assoc.
    + apply IH.
Qed.

(** X2. What the loop returns and prints depends on the text the chunks add
    up to, not on where the chunk boundaries fall or on chunks with null
    content: two well-formed sequences with the same accumulated text give
    the same result and the same final state. *)
Theorem accumulate_ignores_chunk_boundaries :
  forall (chunks chunks' : list Chunk) (fault : option exn)
         (ai_message : string) (s : state),
    forallb well_formed chunks = true ->
    forallb well_formed chunks' = true ->
    accumulated_text chunks = accumulated_text chunks' ->
    accumulate chunks fault ai_message s
    = accumulate chunks' fault ai_message s.
Proof.
  intros chunks chunks' fault acc s Hwf Hwf' Htext.
  rewrite (accumulate_well_formed chunks fault Hwf).
  rewrite (accumulate_well_formed chunks' fault Hwf').
  now rewrite Htext.
Qed.

(** "Hel", "lo", null, " world" and the single chunk "Hello world". *)
Lemma accumulate_ignores_chunk_boundaries_sample :
  accumulate hello_chunks None "" (fresh_state streaming_bot)
  = accumulate [chunk_of (Some "Hello world")] None ""
      (fresh_state streaming_bot).
Proof.
  exact (accumulate_ignores_chunk_boundaries hello_chunks
           [chunk_of (Some "Hello world")] None "" (fresh_state streaming_bot)
           eq_refl eq_refl eq_refl).
Defined.

(** ** Calls that do not stream *)

(** X3. With streaming off and a payload that has at least one choice, the
    call sends one request, prints nothing, hands the recorder the human
    message and the text of the first choice, and, when the recorder
    returns, returns the AI message whose content is that text; further
    choices are ignored. *)
Theorem plain_call_returns_first_choice :
  forall (recorder : string -> value -> option exn) (human_message : string)
         (s : state) (choice : Choice) (others : list Choice),
    streaming (self s) = false ->
    create (client (self s))
      (request_of (self s) (messages_of (self s) human_message))
    = Return (Payload {| choices := choice :: others |}) ->
    __call__ recorder human_message s
    = (match recorder human_message (VStr (text choice)) with
       | None => Return (Message assistant (text choice))
       | Some e => Raise e
       end,
       with_recorded (recorded s ++ [(human_message, VStr (text choice))])
         (with_requests
            (requests s
             ++ [request_of (self s) (messages_of (self s) human_message)])
            s)).
Proof.
  intros recorder h s choice others Hstream Hcreate.
  unfold __call__. rewrite call_with_unfold, generate_response_unfold.
  cbv zeta. rewrite Hcreate, Hstream. reflexivity.
Qed.

(** The payload "Hi there": the caller gets the AI message "Hi there". *)
Lemma plain_call_returns_first_choice_sample :
  __call__ quiet_recorder "hi" (fresh_state plain_bot)
  = (Return (Message assistant "Hi there"),
     with_recorded [("hi", VStr "Hi there")]
       (with_requests [request_of plain_bot (messages_of plain_bot "hi")]
          (fresh_state plain_bot))).
Proof.
  exact (plain_call_returns_first_choice quiet_recorder "hi"
           (fresh_state plain_bot) {| text := "Hi there" |} [] eq_refl
           eq_refl).
Defined.

(** X4. With streaming off and a payload whose list of choices is empty,
    [response.choices[0]] fails: the call raises [IndexError], the recorder
    is not invoked and nothing is printed. *)
Theorem plain_call_without_choices_raises :
  forall (recorder : string -> value -> option exn) (human_message : string)
         (s : state),
    streaming (self s) = false ->
    create (client (self s))
      (request_of (self s) (messages_of (self s) human_message))
    = Return (Payload {| choices := [] |}) ->
    __call__ recorder human_message s
    = (Raise IndexError,
       with_requests
         (requests s
          ++ [request_of (self s) (messages_of (self s) human_message)])
         s).
Proof.
  intros recorder h s Hstream Hcreate.
  unfold __call__. rewrite call_with_unfold, generate_response_unfold.
  cbv zeta. rewrite Hcreate, Hstream. reflexivity.
Qed.

(** A payload without choices. *)
Lemma plain_call_without_choices_sample :
  __call__ quiet_recorder "hi" (fresh_state choiceless_bot)
  = (Raise IndexError,
     with_requests [request_of choiceless_bot (messages_of choiceless_bot "hi")]
       (fresh_state choiceless_bot)).
Proof.
  exact (plain_call_without_choices_raises quiet_recorder "hi"
           (fresh_state choiceless_bot) eq_refl eq_refl).
Defined.

(** ** Streams that stop early *)

(** X5. In streaming mode, a chunk whose list of choices is empty makes the
    call raise [IndexError]: no message is returned and the recorder is not
    invoked, but the fragments of the chunks before it have been printed. *)
Theorem streaming_call_chunk_without_choices :
  forall (recorder : string -> value -> option exn) (human_message : string)
         (s : state) (before after : list Chunk) (chunk : Chunk)
         (fault : option exn),
    streaming (self s) = true ->
    create (client (self s))
      (request_of (self s) (messages_of (self s) human_message))
    = Return (Stream (before ++ chunk :: after) fault) ->
    forallb well_formed before = true ->
    well_formed chunk = false ->
    __call__ recorder human_message s
    = (Raise IndexError,
       with_stdout (stdout s ++ accumulated_text before)
         (with_requests
            (requests s
             ++ [request_of (self s) (messages_of (self s) human_message)])
            s)).
Proof.
  intros recorder h s before after chunk fault Hstream Hcreate Hwf Hbad.
  unfold __call__. rewrite call_with_unfold, generate_response_unfold.
  cbv zeta. rewrite Hcreate, Hstream. unfold bind.
  now rewrite (accumulate_ill_formed before after chunk fault Hwf Hbad).
Qed.

(** "Hel", a chunk without choices, "lo": the call raises [IndexError] with
    "Hel" printed. *)
Lemma streaming_call_chunk_without_choices_sample :
  __call__ quiet_recorder "hi" (fresh_state gap_bot)
  = (Raise IndexError,
     with_stdout "Hel"
       (with_requests [request_of gap_bot (messages_of gap_bot "hi")]
          (fresh_state gap_bot))).
Proof.
  exact (streaming_call_chunk_without_choices quiet_recorder "hi"
           (fresh_state gap_bot) [chunk_of (Some "Hel")]
           [chunk_of (Some "lo")] {| chunk_choices := [] |} None
           eq_refl eq_refl eq_refl eq_refl).
Defined.

(** X6. In streaming mode, when the stream raises a fault after some
    well-formed chunks, the call raises that fault and the recorder is not
    invoked, but the fragments of those chunks have been printed: the
    console shows a partial answer that the caller never receives. *)
Theorem streaming_call_fault_after_output :
  forall (recorder : string -> value -> option exn) (human_message : string)
         (s : state) (chunks : list Chunk) (e : exn),
    streaming (self s) = true ->
    create (client (self s))
      (request_of (self s) (messages_of (self s) human_message))
    = Return (Stream chunks (Some e)) ->
    forallb well_formed chunks = true ->
    __call__ recorder human_message s
    = (Raise e,
       with_stdout (stdout s ++ accumulated_text chunks)
         (with_requests
            (requests s
             ++ [request_of (self s) (messages_of (self s) human_message)])
            s)).
Proof.
  intros recorder h s chunks e Hstream Hcreate Hwf.
  unfold __call__. rewrite call_with_unfold, generate_response_unfold.
  cbv zeta. rewrite Hcreate, Hstream.
  now rewrite stream_branch by exact Hwf.
Qed.

(** A stream that breaks after "Hel", "lo": the call raises [APIError] with
    "Hello" printed. *)
Lemma streaming_call_fault_after_output_sample :
  __call__ quiet_recorder "hi" (fresh_state broken_bot)
  = (Raise APIError,
     with_stdout "Hello"
       (with_requests [request_of broken_bot (messages_of broken_bot "hi")]
          (fresh_state broken_bot))).
Proof.
  exact (streaming_call_fault_after_output quiet_recorder "hi"
           (fresh_state broken_bot)
           [chunk_of (Some "Hel"); chunk_of (Some "lo")] APIError
           eq_refl eq_refl eq_refl).
Defined.

(** ** Sequences of calls *)

(** X7. The requests of a sequence of calls are one per call, in call order,
    each built from the attributes of the instance and the human message of
    its own call, with exactly two messages: no request carries a message or
    an answer of an earlier call. *)
Theorem calls_send_no_history :
  forall (recorder : string -> value -> option exn)
         (human_messages : list string) (s : state),
    requests (run_calls recorder human_messages s)
    = requests s
      ++ map (fun h => request_of (self s) (messages_of (self s) h))
           human_messages
    /\ forall h : string,
         req_messages (request_of (self s) (messages_of (self s) h))
         = [model_dump (system_prompt (self s));
            [("role", VStr "user"); ("content", VStr h)]].
Proof.
  intros recorder hs s. split; [|reflexivity].
  revert s. induction hs as [|h hs IH]; intros s.
  - simpl. now rewrite app_nil_r.
  - rewrite run_calls_cons, IH, call_requests, keeps_self_call.
    simpl. now rewrite <- app_assoc.
Qed.

(** X8. A call invokes the recorder exactly when its generation step returns
    a response, once, with the human message and that response; a call
    whose generation step raises records nothing. *)
Theorem call_records_when_generation_returns :
  forall (recorder : string -> value -> option exn) (human_message : string)
         (s : state),
    recorded (snd (__call__ recorder human_message s))
    = recorded s
      ++ match fst (generate_response (messages_of (self s) human_message) s)
         with
         | Return response => [(human_message, response)]
         | Raise _ => []
         end.
Proof.
  intros recorder h s. unfold __call__. rewrite call_with_unfold.
  destruct (generate_response_state (messages_of (self s) h) s) as [out Hout].
  destruct (generate_response _ s) as [[response|e] s1]; simpl in *;
    subst s1; simpl; [reflexivity | now rewrite app_nil_r].
Qed.

(** X9. A call only adds to what is printed, and with streaming off it
    prints nothing, whatever the client and the recorder do. *)
Theorem call_output_is_appended :
  forall (recorder : string -> value -> option exn) (human_message : string)
         (s : state),
    exists out : string,
      stdout (snd (__call__ recorder human_message s))
      = (stdout s ++ out)%string
      /\ (streaming (self s) = false -> out = "").
Proof.
  intros recorder h s. unfold __call__.
  rewrite call_with_unfold, generate_response_unfold. cbv zeta.
  set (s1 := with_requests _ s).
  destruct (create _ _) as [[chunks fault|p]|e];
    destruct (streaming (self s)) eqn:Hstream;
    try (exists ""; simpl; rewrite append_empty_r; split;
         [reflexivity | reflexivity]).
  - destruct (accumulate_appends chunks fault "" s1) as [out Hout].
    exists out. unfold bind.
    destruct (accumulate chunks fault "" s1) as [[a|e] s2]; simpl in *;
      subst s2; simpl; split; try reflexivity; discriminate.
  - exists "". destruct p as [[|choice others]]; simpl;
      rewrite append_empty_r; split; reflexivity.
Qed.

(** ** The button handler of the panel *)

(** X10. On an instance that has only the attributes [__init__] sets, the
    click handler of [SimpleBot.panel] never calls the bot: it logs the
    input, empties the output pane and raises, with [AttributeError] for
    [self.model] when the Markdown handler could be constructed; no request
    is sent and nothing is recorded. *)
Theorem panel_handler_fails_without_model :
  forall (markdown_handler : option exn)
         (recorder : string -> value -> option exn) (event : unit)
         (g : panel_state),
    self_model g = None ->
    fst (b markdown_handler recorder event g)
    = Raise (match markdown_handler with
             | Some e => e
             | None => NoModelError
             end)
    /\ bot_state (snd (b markdown_handler recorder event g)) = bot_state g
    /\ output_text_object (snd (b markdown_handler recorder event g)) = ""
    /\ logged (snd (b markdown_handler recorder event g))
       = logged g ++ [VStr (input_text_value g)].
Proof.
  intros markdown_handler recorder event g Hmodel. unfold b. simpl.
  rewrite Hmodel. destruct markdown_handler; repeat split.
Qed.

(** A click with "hello" typed in: [AttributeError], and the bot untouched. *)
Lemma panel_handler_fails_without_model_sample :
  fst (b None quiet_recorder tt (sample_panel None)) = Raise NoModelError
  /\ bot_state (snd (b None quiet_recorder tt (sample_panel None)))
     = fresh_state plain_bot
  /\ output_text_object (snd (b None quiet_recorder tt (sample_panel None)))
     = ""
  /\ logged (snd (b None quiet_recorder tt (sample_panel None)))
     = [VStr "hello"].
Proof.
  exact (panel_handler_fails_without_model None quiet_recorder tt
           (sample_panel None) eq_refl).
Defined.

(** With a [model] attribute whose handler registration returns, the handler
    does call the bot with the typed text and logs the answer. *)
Lemma panel_handler_with_model (recorder : string -> value -> option exn)
    (event : unit) (g : panel_state) :
  self_model g = Some None ->
  bot_state (snd (b None recorder event g))
  = snd (__call__ recorder (input_text_value g) (bot_state g)).
Proof.
  intros Hmodel. unfold b. simpl. rewrite Hmodel.
  now destruct (__call__ recorder (input_text_value g) (bot_state g))
    as [[response|e] s].
Qed.

(** ** The repository chat *)

Lemma with_printed_same (t : terminal) : with_printed (printed t) t = t.
Proof. now destruct t. Qed.

(** The discovery loop: the files found are added extension by extension,
    in the order of the extensions, and one line is printed per extension. *)
Lemma discover_run (glob : string -> list string) (extensions : list string) :
  forall (source_files : list string) (t : terminal),
    discover glob extensions source_files t
    = (source_files
       ++ flat_map (fun extension => glob ("*." ++ extension)%string)
            extensions,
       with_printed
         (printed t
          ++ map (fun extension =>
                    found_line (glob ("*." ++ extension)%string) extension)
               extensions)
         t).
Proof.
  induction extensions as [|extension rest IH]; intros files t.
  - simpl. now rewrite !app_nil_r, with_printed_same.
  - simpl. rewrite IH. unfold echo. simpl. now rewrite <- !app_assoc.
Qed.

(** The loop on queries that are all answered, followed by more lines. *)
Lemma chat_loop_answers (env : collaborators) (bot : QueryBot_args)
    (answered : list string) :
  Forall (answered_by env bot) answered ->
  forall (later : list string) (t : terminal),
    chat_loop env bot (answered ++ later) t
    = chat_loop env bot later
        {| printed := printed t ++ map (fun _ => two_newlines) answered;
           constructed := constructed t;
           asked := asked t ++ answered |}.
Proof.
  induction 1 as [|query answered [Hexit Hbot] _ IH]; intros later t.
  - simpl. rewrite !app_nil_r. now destruct t.
  - simpl. rewrite Hexit, Hbot, IH. unfold echo. simpl.
    now rewrite <- !app_assoc.
Qed.

(** X11. The chat loop stops at the first exit request: the queries typed
    before it, if the bot answers them all, are sent to the bot in the
    order typed, each answer is followed by two newlines, and the loop ends
    with what [exit_if_asked] raises; the exit request itself is not sent
    to the bot, and what is typed after it is not read. *)
Theorem chat_loop_stops_at_exit_request :
  forall (env : collaborators) (bot : QueryBot_args)
         (answered later : list string) (stop : string) (e : exn)
         (t : terminal),
    Forall (answered_by env bot) answered ->
    exit_if_asked env stop = Some e ->
    chat_loop env bot (answered ++ stop :: later) t
    = (Raise e,
       {| printed := printed t ++ map (fun _ => two_newlines) answered;
          constructed := constructed t;
          asked := asked t ++ answered |}).
Proof.
  intros env bot answered later stop e t Hanswered Hstop.
  rewrite (chat_loop_answers env bot answered Hanswered). simpl.
  now rewrite Hstop.
Qed.

(** Two queries, then "quit", then a line that is never read. *)
Lemma chat_loop_stops_at_exit_request_sample :
  chat_loop sample_collaborators sample_chat_bot
    ["what is a?"; "and b?"; "quit"; "never read"] empty_terminal
  = (Raise SystemExit,
     {| printed := [two_newlines; two_newlines];
        constructed := [];
        asked := ["what is a?"; "and b?"] |}).
Proof.
  exact (chat_loop_stops_at_exit_request sample_collaborators sample_chat_bot
           ["what is a?"; "and b?"] ["never read"] "quit" SystemExit
           empty_terminal
           (Forall_cons "what is a?"
              (conj eq_refl eq_refl
               : answered_by sample_collaborators sample_chat_bot "what is a?")
              (Forall_cons "and b?"
                 (conj eq_refl eq_refl
                  : answered_by sample_collaborators sample_chat_bot "and b?")
                 (Forall_nil _)))
           eq_refl).
Defined.

(** X12. A fault of the bot ends the chat: the query on which the bot raises
    has been sent to the bot, no newlines are echoed after it, the fault
    reaches the caller as it is, and what is typed after it is not read. *)
Theorem chat_loop_stops_at_bot_fault :
  forall (env : collaborators) (bot : QueryBot_args)
         (answered later : list string) (query : string) (e : exn)
         (t : terminal),
    Forall (answered_by env bot) answered ->
    exit_if_asked env query = None ->
    bot_call env bot query = Some e ->
    chat_loop env bot (answered ++ query :: later) t
    = (Raise e,
       {| printed := printed t ++ map (fun _ => two_newlines) answered;
          constructed := constructed t;
          asked := asked t ++ answered ++ [query] |}).
Proof.
  intros env bot answered later query e t Hanswered Hexit Hbot.
  rewrite (chat_loop_answers env bot answered Hanswered). simpl.
  rewrite Hexit, Hbot. now rewrite <- app_assoc.
Qed.

(** One query answered, then "boom". *)
Lemma chat_loop_stops_at_bot_fault_sample :
  chat_loop fragile_collaborators sample_chat_bot
    ["what is a?"; "boom"; "exit"] empty_terminal
  = (Raise RetrievalError,
     {| printed := [two_newlines];
        constructed := [];
        asked := ["what is a?"; "boom"] |}).
Proof.
  exact (chat_loop_stops_at_bot_fault fragile_collaborators sample_chat_bot
           ["what is a?"] ["exit"] "boom" RetrievalError empty_terminal
           (Forall_cons "what is a?"
              (conj eq_refl eq_refl
               : answered_by fragile_collaborators sample_chat_bot "what is a?")
              (Forall_nil _))
           eq_refl eq_refl).
Defined.

(** X13. The chat loop never returns: for every sequence of typed lines it
    ends with a fault, having sent to the bot a prefix of the typed lines,
    in order, none of them an exit request, and having constructed no
    bot. *)
Theorem chat_loop_never_returns :
  forall (env : collaborators) (bot : QueryBot_args) (typed : list string)
         (t : terminal),
    exists (e : exn) (n : nat),
      fst (chat_loop env bot typed t) = Raise e
      /\ asked (snd (chat_loop env bot typed t)) = asked t ++ firstn n typed
      /\ Forall (fun query => exit_if_asked env query = None) (firstn n typed)
      /\ constructed (snd (chat_loop env bot typed t)) = constructed t.
Proof.
  intros env bot typed. induction typed as [|query rest IH]; intros t.
  - exists (end_of_input env), 0. simpl. rewrite app_nil_r. repeat split.
    constructor.
  - simpl. destruct (exit_if_asked env query) as [e|] eqn:Hexit.
    + exists e, 0. simpl. rewrite app_nil_r. repeat split. constructor.
    + destruct (bot_call env bot query) as [e|].
      * exists e, 1. simpl. repeat split. constructor; [exact Hexit|constructor].
      * destruct (IH (echo two_newlines
                        {| printed := printed t; constructed := constructed t;
                           asked := asked t ++ [query] |}))
          as [e [n [Hfst [Hasked [Hall Hbots]]]]].
        exists e, (S n). rewrite Hfst, Hasked, Hbots. simpl.
        rewrite <- app_assoc. repeat split. constructor; assumption.
Qed.

(** X14. When the temporary directory, the clone, the checkout and the
    construction of the bot succeed, [chat] prints one line "Found n files
    with extension e." per extension, in the order of the extensions,
    constructs one bot, whose collection is named by the repository URL and
    whose documents are the files found for the first extension, then those
    for the second, and so on (a file found for two listed extensions twice),
    and then runs the chat loop with that bot. *)
Theorem chat_hands_discovered_files_to_bot :
  forall (env : collaborators) (repo_url checkout : string)
         (source_file_extensions : list string) (model_name : string)
         (typed : list string) (t : terminal) (temp_dir : string),
    TemporaryDirectory env = Return temp_dir ->
    clone_from env repo_url temp_dir = None ->
    git_checkout env checkout = None ->
    QueryBot env
      (chat_bot env temp_dir repo_url source_file_extensions model_name)
    = None ->
    chat env repo_url checkout source_file_extensions model_name typed t
    = chat_loop env
        (chat_bot env temp_dir repo_url source_file_extensions model_name)
        typed
        {| printed :=
             printed t
             ++ map (fun extension =>
                       found_line
                         (rglob env temp_dir ("*." ++ extension)%string)
                         extension)
                  source_file_extensions;
           constructed :=
             constructed t
             ++ [chat_bot env temp_dir repo_url source_file_extensions
                   model_name];
           asked := asked t |}.
Proof.
  intros env repo_url checkout exts model_name typed t temp_dir
    Htemp Hclone Hcheckout Hbot.
  unfold chat. rewrite Htemp, Hclone, Hcheckout, discover_run.
  cbv beta iota zeta. rewrite app_nil_l.
  fold (chat_bot env temp_dir repo_url exts model_name).
  rewrite Hbot. reflexivity.
Qed.

(** The extensions py, md, py on the sample repository: the Python files
    are handed to the bot twice. *)
Lemma chat_hands_discovered_files_sample :
  chat sample_collaborators "https://example.org/r.git" default_checkout
    ["py"; "md"; "py"] default_chat_model_name ["exit"] empty_terminal
  = chat_loop sample_collaborators sample_chat_bot ["exit"]
      {| printed :=
           ["Found 2 files with extension py.";
            "Found 1 files with extension md.";
            "Found 2 files with extension py."];
         constructed :=
           [ {| qb_system_prompt := repository_prompt;
                collection_name := "https://example.org/r.git";
                document_paths :=
                  ["a.py"; "pkg/b.py"; "README.md"; "a.py"; "pkg/b.py"];
                qb_model_name := "mistral/mistral-medium" |} ];
         asked := [] |}.
Proof.
  exact (chat_hands_discovered_files_to_bot sample_collaborators
           "https://example.org/r.git" default_checkout ["py"; "md"; "py"]
           default_chat_model_name ["exit"] empty_terminal "/tmp/tmpabc"
           eq_refl eq_refl eq_refl eq_refl).
Defined.
